(** * The pull-request dispatcher of the publish bot ([src/check.ts])

  A shallow embedding of [check] and of the three validators
  [checkBot], [checkAdapter] and [checkPlugin], together with a small
  model of the part of JavaScript's promise semantics the source relies on:
  an [async] function runs synchronously up to its first [await], a call
  whose promise is dropped does not suspend the caller, and the
  continuation of an [await] runs when the awaited request has completed.

  Strings are byte strings (UTF-8), integers are [Z]. *)

From Stdlib Require Import String Ascii List ZArith Lia Bool.
Import ListNotations.
Local Open Scope string_scope.
Local Open Scope list_scope.
Local Open Scope Z_scope.

(** ** JavaScript values used by the source *)

Module Js.

(** Truthiness of a [number | null | undefined]: [null], [undefined] and
    [0] are falsy.  The guard [if (!issue_number)] takes the falsy side. *)
Definition truthy_number (v : option Z) : option Z :=
  match v with
  | Some n => if n =? 0 then None else Some n
  | None => None
  end.

(** [v ?? d] on a [string | null | undefined]. *)
Definition nullish (v : option string) (d : string) : string :=
  match v with
  | Some s => s
  | None => d
  end.

(** [s] occurs in [t] as a contiguous substring. *)
Definition contains (t s : string) : Prop :=
  exists pre post, t = (pre ++ s ++ post)%string.

End Js.

(** ** Data of the run *)

(** The extension type the label classifier selects. *)
Inductive ExtensionType : Type := Bot | Adapter | Plugin.

(** The string an [ExtensionType] is at run time. *)
Definition tag (t : ExtensionType) : string :=
  match t with
  | Bot => "Bot"
  | Adapter => "Adapter"
  | Plugin => "Plugin"
  end.

(** The record [extractInfo] returns.  Its discriminant is kept as the string
    it is at run time: the [switch] of [check] compares it with three
    literals and has no [default]. *)
Record Info : Type := mkInfo {
  type : string;
  name : string;
  author : string
}.

(** [issue.data] as [check] reads it: [body] may be [null], [user] may be
    [null], and [login] is read through [?.] and [??]. *)
Record User : Type := mkUser { login : option string }.

Record IssueData : Type := mkIssue {
  body : option string;
  user : option User
}.

(** [github.context.repo]. *)
Record Repo : Type := mkRepo { owner : string; repo : string }.

(** [github.context.payload.pull_request], when present. *)
Record PullRequest (Labels : Type) : Type := mkPullRequest {
  labels : Labels;
  head_ref : string
}.
Arguments mkPullRequest {Labels} _ _.
Arguments labels {Labels} _.
Arguments head_ref {Labels} _.

(** [github.context]: the repository and the payload's pull request. *)
Record Context (Labels : Type) : Type := mkContext {
  ctx_repo : Repo;
  pull_request : option (PullRequest Labels)
}.
Arguments mkContext {Labels} _ _.
Arguments ctx_repo {Labels} _.
Arguments pull_request {Labels} _.

(** ** Asynchronous programs *)

(** The three validators. *)
Inductive fname : Type := FcheckBot | FcheckAdapter | FcheckPlugin.

(** The [case] label under which the [switch] calls each validator. *)
Definition case_label (f : fname) : string :=
  match f with
  | FcheckBot => "Bot"
  | FcheckAdapter => "Adapter"
  | FcheckPlugin => "Plugin"
  end.

(** The promise an [async] function returns, named by the function. *)
Inductive promise : Type := Pcheck | Pof (f : fname).

Inductive outcome : Type := Resolved | Rejected.

(** What a run does, in order. *)
Inductive event : Type :=
| EInfo (msg : string)                         (* core.info(msg) *)
| ESetFailed (msg : string)                    (* core.setFailed(msg) *)
| EIssuesGet (r : Repo) (issue_number : Z)     (* issues.get request sent *)
| EIssuesGetDone (ok : bool)                   (* ... and its response *)
| EPublishComment (issue_number : Z) (text : string)
                                               (* publishComment called *)
| EPublishCommentDone (ok : bool)              (* ... and its completion *)
| EEnter (f : fname) (info : Info)             (* a validator is called *)
| ESettle (p : promise) (o : outcome).         (* a promise settles *)

(** The body of an [async] function returning [void].  [Invoke] is a call of
    an [async] function as a statement: the promise it returns is dropped. *)
Inductive async : Type :=
| Return
| Info_ (msg : string) (k : async)
| SetFailed (msg : string) (k : async)
| AwaitIssuesGet (r : Repo) (issue_number : Z) (k : IssueData -> async)
| AwaitPublishComment (issue_number : Z) (text : string) (k : async)
| Invoke (f : fname) (info : Info) (callee : async) (k : async).

(** A function suspended at an [await]. *)
Inductive suspended : Type :=
| OnIssuesGet (p : promise) (issue_number : Z) (k : IssueData -> async)
| OnPublishComment (p : promise) (issue_number : Z) (text : string)
                   (k : async).

(** Runs the body of the function that owns promise [p] until it ends or
    suspends: the events, and the functions left suspended.  A callee runs
    up to its first [await] and then the caller goes on. *)
Fixpoint exec (p : promise) (a : async) : list event * list suspended :=
  match a with
  | Return => ([ESettle p Resolved], [])
  | Info_ msg k =>
      let '(t, s) := exec p k in (EInfo msg :: t, s)
  | SetFailed msg k =>
      let '(t, s) := exec p k in (ESetFailed msg :: t, s)
  | AwaitIssuesGet r n k =>
      ([EIssuesGet r n], [OnIssuesGet p n k])
  | AwaitPublishComment n text k =>
      ([EPublishComment n text], [OnPublishComment p n text k])
  | Invoke f info callee k =>
      let '(t1, s1) := exec (Pof f) callee in
      let '(t2, s2) := exec p k in
      (EEnter f info :: t1 ++ t2, s1 ++ s2)
  end.

(** The network: what [issues.get] answers ([None]: the request fails) and
    whether creating a comment succeeds. *)
Record Network : Type := mkNetwork {
  issues_get : Z -> option IssueData;
  create_comment : Z -> string -> bool
}.

(** The event loop: completes the pending requests in the order they were
    sent and resumes the function awaiting each.  A failed request rejects
    the promise of the function that awaited it.  [None]: out of fuel. *)
Fixpoint loop (fuel : nat) (net : Network) (q : list suspended)
  : option (list event) :=
  match q with
  | [] => Some []
  | task :: q' =>
      match fuel with
      | O => None
      | S fuel' =>
          match task with
          | OnIssuesGet p n k =>
              match issues_get net n with
              | Some issue =>
                  let '(t, s) := exec p (k issue) in
                  option_map (fun rest => EIssuesGetDone true :: t ++ rest)
                             (loop fuel' net (q' ++ s))
              | None =>
                  option_map
                    (fun rest =>
                       EIssuesGetDone false :: ESettle p Rejected :: rest)
                    (loop fuel' net q')
              end
          | OnPublishComment p n text k =>
              if create_comment net n text then
                let '(t, s) := exec p k in
                option_map (fun rest => EPublishCommentDone true :: t ++ rest)
                           (loop fuel' net (q' ++ s))
              else
                option_map
                  (fun rest =>
                     EPublishCommentDone false :: ESettle p Rejected :: rest)
                  (loop fuel' net q')
          end
      end
  end.

(** A whole run of an entry point whose promise is [Pcheck]. *)
Definition run_async (fuel : nat) (net : Network) (a : async)
  : option (list event) :=
  let '(t, s) := exec Pcheck a in
  option_map (fun rest => t ++ rest) (loop fuel net s).

(** ** Observations on a trace *)

(** The issue numbers fetched. *)
Definition fetches (t : list event) : list Z :=
  flat_map (fun e => match e with EIssuesGet _ n => [n] | _ => [] end) t.

(** The comments posted: issue number and text. *)
Definition comments (t : list event) : list (Z * string) :=
  flat_map (fun e => match e with
                     | EPublishComment n text => [(n, text)]
                     | _ => []
                     end) t.

(** The validators called, with the record each received. *)
Definition entered (t : list event) : list (fname * Info) :=
  flat_map (fun e => match e with EEnter f i => [(f, i)] | _ => [] end) t.

(** The failure signals. *)
Definition failures (t : list event) : list string :=
  flat_map (fun e => match e with ESetFailed m => [m] | _ => [] end) t.

(** The calls to the external API. *)
Definition api_calls (t : list event) : list event :=
  filter (fun e => match e with
                   | EIssuesGet _ _ | EPublishComment _ _ => true
                   | _ => false
                   end) t.

Definition fname_eqb (f g : fname) : bool :=
  match f, g with
  | FcheckBot, FcheckBot
  | FcheckAdapter, FcheckAdapter
  | FcheckPlugin, FcheckPlugin => true
  | _, _ => false
  end.

Definition promise_eqb (p q : promise) : bool :=
  match p, q with
  | Pcheck, Pcheck => true
  | Pof f, Pof g => fname_eqb f g
  | _, _ => false
  end.

(** How the promise [p] settled, [None] when it never does. *)
Definition settled (p : promise) (t : list event) : option outcome :=
  hd_error
    (flat_map (fun e => match e with
                        | ESettle q o => if promise_eqb p q then [o] else []
                        | _ => []
                        end) t).

(** [e1] occurs in [t] strictly before [e2]. *)
Definition before (e1 e2 : event) (t : list event) : Prop :=
  exists a b c, t = a ++ e1 :: b ++ e2 :: c.

(** The informational messages, in order. *)
Definition infos (t : list event) : list string :=
  flat_map (fun e => match e with EInfo m => [m] | _ => [] end) t.

(** Every settlement of the promise [p], in order. *)
Definition settlements (p : promise) (t : list event) : list outcome :=
  flat_map (fun e => match e with
                     | ESettle q o => if promise_eqb p q then [o] else []
                     | _ => []
                     end) t.

(** What happens after the promise [p] has settled. *)
Fixpoint after_settle (p : promise) (t : list event) : list event :=
  match t with
  | [] => []
  | ESettle q _ :: t' => if promise_eqb p q then t' else after_settle p t'
  | _ :: t' => after_settle p t'
  end.

(** ** The source: [check] and the validators *)

Section Check.

(** The helpers imported from [./utils], and the type of the payload's
    labels.  [pull_request?.labels] and [pull_request?.head.ref] are
    [undefined] when the payload has no pull request, hence the options. *)
Variable Labels : Type.
Variable checkLabel : option Labels -> option ExtensionType.
Variable extractIssueNumberFromRef : option string -> option Z.
Variable extractInfo : ExtensionType -> string -> string -> Info.

Definition checkPlugin (info : Info) (issue_number : Z) : async :=
  Info_ ("插件 " ++ name info)%string
    (AwaitPublishComment issue_number
       ("插件 " ++ name info ++ " 没有问题")%string
       Return).

Definition checkBot (info : Info) : async :=
  Info_ ("机器人 " ++ name info)%string Return.

Definition checkAdapter (info : Info) : async :=
  Info_ ("适配器 " ++ name info)%string Return.

(** [issue.data.user?.login]. *)
Definition user_login (issue : IssueData) : option string :=
  match user issue with
  | Some u => login u
  | None => None
  end.

(** The record [check] builds from the fetched issue. *)
Definition build_info (issueType : ExtensionType) (issue : IssueData) : Info :=
  extractInfo issueType
              (Js.nullish (body issue) "")
              (Js.nullish (user_login issue) "").

(** The [switch (info.type)]. *)
Definition dispatch (info : Info) (issue_number : Z) : async :=
  if String.eqb (type info) "Bot" then
    Invoke FcheckBot info (checkBot info) Return
  else if String.eqb (type info) "Adapter" then
    Invoke FcheckAdapter info (checkAdapter info) Return
  else if String.eqb (type info) "Plugin" then
    Invoke FcheckPlugin info (checkPlugin info issue_number) Return
  else Return.

Definition check (ctx : Context Labels) : async :=
  match checkLabel (option_map labels (pull_request ctx)) with
  | Some issueType =>
      let ref := option_map head_ref (pull_request ctx) in
      match Js.truthy_number (extractIssueNumberFromRef ref) with
      | None => SetFailed "无法获取议题" Return
      | Some issue_number =>
          AwaitIssuesGet (ctx_repo ctx) issue_number (fun issue =>
            dispatch (build_info issueType issue) issue_number)
      end
  | None => Info_ "拉取请求与插件无关，已跳过" Return
  end.

(** One run of [check] on a context and a network. *)
Definition run (fuel : nat) (net : Network) (ctx : Context Labels)
  : option (list event) :=
  run_async fuel net (check ctx).

End Check.

(** ** The helpers of [./utils], from the specification *)

Module Utils.

Section Classifier.

(** The fixed mapping from label names to extension types. *)
Variable label_type : string -> option ExtensionType.

(** Modelled from the spec: [checkLabel] of [./utils] is not part of the
    sources at hand.  It scans the labels against the fixed mapping and
    returns the first match, or null when no label matches or the labels
    are absent. *)
Fixpoint first_label (ls : list string) : option ExtensionType :=
  match ls with
  | [] => None
  | l :: ls' =>
      match label_type l with
      | Some t => Some t
      | None => first_label ls'
      end
  end.

(** Modelled from the spec: [checkLabel] on the payload's labels, which may
    be absent. *)
Definition checkLabel (ls : option (list string)) : option ExtensionType :=
  match ls with
  | Some l => first_label l
  | None => None
  end.

End Classifier.

(** Modelled from the spec: the label names of the end-to-end scenarios,
    each naming its extension type. *)
Definition scenario_label_type (l : string) : option ExtensionType :=
  if String.eqb l "Bot" then Some Bot
  else if String.eqb l "Adapter" then Some Adapter
  else if String.eqb l "Plugin" then Some Plugin
  else None.

Definition is_digit (c : ascii) : bool :=
  ((48 <=? nat_of_ascii c)%nat && (nat_of_ascii c <=? 57)%nat)%bool.

Definition digit_value (c : ascii) : Z := Z.of_nat (nat_of_ascii c) - 48.

Fixpoint all_digits (s : string) : bool :=
  match s with
  | EmptyString => true
  | String c r => (is_digit c && all_digits r)%bool
  end.

(** The integer a string of decimal digits denotes, by position. *)
Fixpoint decimal (s : string) : Z :=
  match s with
  | EmptyString => 0
  | String c r => digit_value c * 10 ^ Z.of_nat (String.length r) + decimal r
  end.

(** Reads decimal digits from the left; [None] at the first other
    character. *)
Fixpoint parse_digits (acc : Z) (s : string) : option Z :=
  match s with
  | EmptyString => Some acc
  | String c r =>
      if is_digit c then parse_digits (acc * 10 + digit_value c) r else None
  end.

(** What follows the prefix [p] in [s], when [s] starts with it. *)
Fixpoint strip_prefix (p s : string) : option string :=
  match p with
  | EmptyString => Some s
  | String a p' =>
      match s with
      | EmptyString => None
      | String b s' => if Ascii.eqb a b then strip_prefix p' s' else None
      end
  end.

Section Parser.

(** The fixed prefix of the branch naming convention. *)
Variable fixed_prefix : string.

(** Modelled from the spec: [extractIssueNumberFromRef] of [./utils] is not
    part of the sources at hand.  On a ref made of the fixed prefix followed
    by digits it returns the integer the digits denote; it returns null when
    the ref does not match the convention or yields a non-positive or
    unparsable number. *)
Definition extractIssueNumberFromRef (ref : string) : option Z :=
  match strip_prefix fixed_prefix ref with
  | Some EmptyString => None
  | Some digits =>
      match parse_digits 0 digits with
      | Some n => if 0 <? n then Some n else None
      | None => None
      end
  | None => None
  end.

(** The parser on the value [check] passes, [undefined] when the payload
    has no pull request. *)
Definition extractIssueNumberFromRef_opt (ref : option string) : option Z :=
  match ref with
  | Some r => extractIssueNumberFromRef r
  | None => None
  end.

End Parser.

Section Extractor.

(** The type-specific template reader that recovers the name from a body,
    [None] when the body has no recoverable name. *)
Variable parse_name : ExtensionType -> string -> option string.

(** Modelled from the spec: [extractInfo] of [./utils] is not part of the
    sources at hand.  It recovers the name from the body, with the empty
    string when there is none, and always stamps the record with the
    supplied type and the supplied author. *)
Definition extractInfo (t : ExtensionType) (body author : string) : Info :=
  {| type := tag t;
     name := match parse_name t body with
             | Some n => n
             | None => ""
             end;
     author := author |}.

End Extractor.

End Utils.

(** ** The end-to-end scenarios of the specification *)

Module Scenario.

Definition this_repo : Repo := mkRepo "nonebot" "nonebot2".

(** A pull request with the given labels and head branch. *)
Definition context (ls : list string) (branch : string)
  : Context (list string) :=
  mkContext this_repo (Some (mkPullRequest ls branch)).

(** A template reader for the scenarios: the body is [name: ] followed by
    the name. *)
Definition parse_name (_ : ExtensionType) (body : string) : option string :=
  Utils.strip_prefix "name: " body.

Definition checkLabel := Utils.checkLabel Utils.scenario_label_type.

Definition extractIssueNumberFromRef :=
  Utils.extractIssueNumberFromRef_opt "issue-".

Definition extractInfo := Utils.extractInfo parse_name.

Definition issue (body : string) (author : string) : IssueData :=
  mkIssue (Some body) (Some (mkUser (Some author))).

(** A network on which issue [n] is [i] and comment creation answers
    [comment_ok]. *)
Definition network (n : Z) (i : IssueData) (comment_ok : bool) : Network :=
  mkNetwork (fun m => if m =? n then Some i else None)
            (fun _ _ => comment_ok).

(** A network on which every request fails. *)
Definition offline : Network :=
  mkNetwork (fun _ => None) (fun _ _ => false).

Definition run :=
  run (list string) checkLabel extractIssueNumberFromRef extractInfo.

End Scenario.

(** ** The traces of [check], path by path *)

Lemma truthy_number_some (v : option Z) (n : Z) :
  Js.truthy_number v = Some n <-> v = Some n /\ n <> 0.
Proof.
  unfold Js.truthy_number. destruct v as [m|].
  - destruct (Z.eqb_spec m 0) as [E|E]; split.
    + discriminate.
    + intros [H H0]. injection H as ->. contradiction.
    + intros H. injection H as ->. split; [reflexivity | assumption].
    + intros [H _]. exact H.
  - split; [discriminate | intros [H _]; discriminate].
Qed.

Lemma truthy_number_none (v : option Z) :
  Js.truthy_number v = None <-> v = None \/ v = Some 0.
Proof.
  unfold Js.truthy_number. destruct v as [m|].
  - destruct (Z.eqb_spec m 0) as [E|E]; split.
    + intros _. right. now subst.
    + reflexivity.
    + discriminate.
    + intros [H|H]; [discriminate | injection H as ->; contradiction].
  - split; [now left | reflexivity].
Qed.

Lemma contains_middle (a s b : string) :
  Js.contains (a ++ s ++ b)%string s.
Proof. exists a, b. reflexivity. Qed.

Section CheckFacts.

Variable Labels : Type.
Variable checkLabel : option Labels -> option ExtensionType.
Variable extractIssueNumberFromRef : option string -> option Z.
Variable extractInfo : ExtensionType -> string -> string -> Info.

Local Abbreviation check_ :=
  (check Labels checkLabel extractIssueNumberFromRef extractInfo).
Local Abbreviation run_ :=
  (run Labels checkLabel extractIssueNumberFromRef extractInfo).
Local Abbreviation build_ := (build_info extractInfo).
Local Abbreviation labels_of ctx := (option_map labels (pull_request ctx)).
Local Abbreviation ref_of ctx := (option_map head_ref (pull_request ctx)).

Lemma check_skipped (ctx : Context Labels) :
  checkLabel (labels_of ctx) = None ->
  check_ ctx = Info_ "拉取请求与插件无关，已跳过" Return.
Proof. intros H. unfold check. rewrite H. reflexivity. Qed.

Lemma check_unresolved (ctx : Context Labels) (t : ExtensionType) :
  checkLabel (labels_of ctx) = Some t ->
  Js.truthy_number (extractIssueNumberFromRef (ref_of ctx)) = None ->
  check_ ctx = SetFailed "无法获取议题" Return.
Proof. intros H1 H2. unfold check. rewrite H1. cbv zeta. rewrite H2. reflexivity. Qed.

Lemma check_fetches (ctx : Context Labels) (t : ExtensionType) (n : Z) :
  checkLabel (labels_of ctx) = Some t ->
  Js.truthy_number (extractIssueNumberFromRef (ref_of ctx)) = Some n ->
  check_ ctx =
  AwaitIssuesGet (ctx_repo ctx) n (fun issue => dispatch (build_ t issue) n).
Proof. intros H1 H2. unfold check. rewrite H1. cbv zeta. rewrite H2. reflexivity. Qed.

Lemma type_cases (info : Info) :
  type info = "Bot" \/ type info = "Adapter" \/ type info = "Plugin" \/
  ~ In (type info) ["Bot"; "Adapter"; "Plugin"].
Proof.
  destruct (String.eqb_spec (type info) "Bot") as [E1|E1]; [now left|].
  destruct (String.eqb_spec (type info) "Adapter") as [E2|E2];
    [now right; left|].
  destruct (String.eqb_spec (type info) "Plugin") as [E3|E3];
    [now right; right; left|].
  right; right; right. simpl. intros [H|[H|[H|[]]]]; congruence.
Qed.

Lemma dispatch_bot (info : Info) (n : Z) :
  type info = "Bot" ->
  dispatch info n = Invoke FcheckBot info (checkBot info) Return.
Proof. intros H. unfold dispatch. rewrite H. reflexivity. Qed.

Lemma dispatch_adapter (info : Info) (n : Z) :
  type info = "Adapter" ->
  dispatch info n = Invoke FcheckAdapter info (checkAdapter info) Return.
Proof. intros H. unfold dispatch. rewrite H. reflexivity. Qed.

Lemma dispatch_plugin (info : Info) (n : Z) :
  type info = "Plugin" ->
  dispatch info n = Invoke FcheckPlugin info (checkPlugin info n) Return.
Proof. intros H. unfold dispatch. rewrite H. reflexivity. Qed.

Lemma dispatch_other (info : Info) (n : Z) :
  ~ In (type info) ["Bot"; "Adapter"; "Plugin"] ->
  dispatch info n = Return.
Proof.
  intros H. unfold dispatch.
  destruct (String.eqb_spec (type info) "Bot") as [E|_];
    [exfalso; apply H; simpl; auto|].
  destruct (String.eqb_spec (type info) "Adapter") as [E|_];
    [exfalso; apply H; simpl; auto|].
  destruct (String.eqb_spec (type info) "Plugin") as [E|_];
    [exfalso; apply H; simpl; auto|].
  reflexivity.
Qed.

Lemma run_skipped (fuel : nat) (net : Network) (ctx : Context Labels) :
  checkLabel (labels_of ctx) = None ->
  run_ fuel net ctx =
  Some [EInfo "拉取请求与插件无关，已跳过"; ESettle Pcheck Resolved].
Proof.
  intros H. unfold run. rewrite (check_skipped ctx H).
  destruct fuel; reflexivity.
Qed.

Lemma run_unresolved (fuel : nat) (net : Network) (ctx : Context Labels)
      (t : ExtensionType) :
  checkLabel (labels_of ctx) = Some t ->
  Js.truthy_number (extractIssueNumberFromRef (ref_of ctx)) = None ->
  run_ fuel net ctx = Some [ESetFailed "无法获取议题"; ESettle Pcheck Resolved].
Proof.
  intros H1 H2. unfold run. rewrite (check_unresolved ctx t H1 H2).
  destruct fuel; reflexivity.
Qed.

Section Fetched.

Variables (fuel : nat) (net : Network) (ctx : Context Labels).
Variables (t : ExtensionType) (n : Z).
Hypothesis Hlabel : checkLabel (labels_of ctx) = Some t.
Hypothesis Hnumber :
  Js.truthy_number (extractIssueNumberFromRef (ref_of ctx)) = Some n.

Lemma run_fetch_failed :
  issues_get net n = None ->
  run_ (S fuel) net ctx =
  Some [EIssuesGet (ctx_repo ctx) n; EIssuesGetDone false;
        ESettle Pcheck Rejected].
Proof.
  intros H. unfold run. rewrite (check_fetches ctx t n Hlabel Hnumber).
  unfold run_async. simpl. rewrite H. destruct fuel; reflexivity.
Qed.

Variable issue : IssueData.
Hypothesis Hissue : issues_get net n = Some issue.

Lemma run_bot :
  type (build_ t issue) = "Bot" ->
  run_ (S fuel) net ctx =
  Some [EIssuesGet (ctx_repo ctx) n; EIssuesGetDone true;
        EEnter FcheckBot (build_ t issue);
        EInfo ("机器人 " ++ name (build_ t issue))%string;
        ESettle (Pof FcheckBot) Resolved; ESettle Pcheck Resolved].
Proof.
  intros H. unfold run. rewrite (check_fetches ctx t n Hlabel Hnumber).
  unfold run_async. simpl. rewrite Hissue, (dispatch_bot _ _ H).
  destruct fuel; reflexivity.
Qed.

Lemma run_adapter :
  type (build_ t issue) = "Adapter" ->
  run_ (S fuel) net ctx =
  Some [EIssuesGet (ctx_repo ctx) n; EIssuesGetDone true;
        EEnter FcheckAdapter (build_ t issue);
        EInfo ("适配器 " ++ name (build_ t issue))%string;
        ESettle (Pof FcheckAdapter) Resolved; ESettle Pcheck Resolved].
Proof.
  intros H. unfold run. rewrite (check_fetches ctx t n Hlabel Hnumber).
  unfold run_async. simpl. rewrite Hissue, (dispatch_adapter _ _ H).
  destruct fuel; reflexivity.
Qed.

Lemma run_plugin :
  type (build_ t issue) = "Plugin" ->
  let info := build_ t issue in
  let text := ("插件 " ++ name info ++ " 没有问题")%string in
  run_ (S (S fuel)) net ctx =
  Some [EIssuesGet (ctx_repo ctx) n; EIssuesGetDone true;
        EEnter FcheckPlugin info;
        EInfo ("插件 " ++ name info)%string;
        EPublishComment n text;
        ESettle Pcheck Resolved;
        EPublishCommentDone (create_comment net n text);
        ESettle (Pof FcheckPlugin)
                (if create_comment net n text then Resolved else Rejected)].
Proof.
  intros H info text. unfold run.
  rewrite (check_fetches ctx t n Hlabel Hnumber).
  unfold run_async. cbn [exec loop]. rewrite Hissue, (dispatch_plugin _ _ H).
  unfold checkPlugin. cbn [exec loop app option_map].
  change (build_ t issue) with info.
  change ("插件 " ++ name info ++ " 没有问题")%string with text.
  destruct (create_comment net n text); destruct fuel; reflexivity.
Qed.

Lemma run_other :
  ~ In (type (build_ t issue)) ["Bot"; "Adapter"; "Plugin"] ->
  run_ (S fuel) net ctx =
  Some [EIssuesGet (ctx_repo ctx) n; EIssuesGetDone true;
        ESettle Pcheck Resolved].
Proof.
  intros H. unfold run. rewrite (check_fetches ctx t n Hlabel Hnumber).
  unfold run_async. simpl. rewrite Hissue, (dispatch_other _ _ H).
  destruct fuel; reflexivity.
Qed.

End Fetched.

End CheckFacts.

(** ** The dispatcher *)

Section Dispatcher.

Variable Labels : Type.
Variable checkLabel : option Labels -> option ExtensionType.
Variable extractIssueNumberFromRef : option string -> option Z.
Variable extractInfo : ExtensionType -> string -> string -> Info.

Local Abbreviation check_ :=
  (check Labels checkLabel extractIssueNumberFromRef extractInfo).
Local Abbreviation run_ :=
  (run Labels checkLabel extractIssueNumberFromRef extractInfo).
Local Abbreviation build_ := (build_info extractInfo).
Local Abbreviation labels_of ctx := (option_map labels (pull_request ctx)).
Local Abbreviation ref_of ctx := (option_map head_ref (pull_request ctx)).

(** C1, as amended.  When the label classifier returns an extension type and
    the branch parser returns a non-null, non-zero issue number, [check]
    sends exactly one [issues.get] request, for that number.  When the
    request fails no validator is called and the promise of [check] is
    rejected.  When it succeeds and the type of the built record is one of
    [Bot], [Adapter], [Plugin], exactly one validator is called, after the
    fetch, with the built record, and it is the one whose [case] label is
    the record's type. *)
Theorem check_fetches_once_then_one_validator
        (fuel : nat) (net : Network) (ctx : Context Labels)
        (t : ExtensionType) (n : Z) :
  checkLabel (labels_of ctx) = Some t ->
  extractIssueNumberFromRef (ref_of ctx) = Some n ->
  n <> 0 ->
  exists tr,
    run_ (S (S fuel)) net ctx = Some tr /\
    fetches tr = [n] /\
    (issues_get net n = None ->
     entered tr = [] /\ settled Pcheck tr = Some Rejected) /\
    (forall issue,
        issues_get net n = Some issue ->
        In (type (build_ t issue)) ["Bot"; "Adapter"; "Plugin"] ->
        exists f,
          entered tr = [(f, build_ t issue)] /\
          case_label f = type (build_ t issue) /\
          before (EIssuesGet (ctx_repo ctx) n) (EEnter f (build_ t issue)) tr).
Proof.
  intros Hl He Hn.
  assert (Ht : Js.truthy_number (extractIssueNumberFromRef (ref_of ctx))
               = Some n) by (apply truthy_number_some; auto).
  destruct (issues_get net n) as [issue|] eqn:Hi.
  - destruct (type_cases (build_ t issue)) as [Hb|[Ha|[Hp|Ho]]].
    + eexists. split; [exact (run_bot _ _ _ _ _ _ _ _ _ Hl Ht _ Hi Hb)|].
      split; [reflexivity|]. split; [discriminate|].
      intros i Ei _. injection Ei as <-. exists FcheckBot.
      split; [reflexivity|]. split; [now rewrite Hb|].
      exists [], [EIssuesGetDone true]. eexists. reflexivity.
    + eexists. split; [exact (run_adapter _ _ _ _ _ _ _ _ _ Hl Ht _ Hi Ha)|].
      split; [reflexivity|]. split; [discriminate|].
      intros i Ei _. injection Ei as <-. exists FcheckAdapter.
      split; [reflexivity|]. split; [now rewrite Ha|].
      exists [], [EIssuesGetDone true]. eexists. reflexivity.
    + eexists. split; [exact (run_plugin _ _ _ _ _ _ _ _ _ Hl Ht _ Hi Hp)|].
      split; [reflexivity|]. split; [discriminate|].
      intros i Ei _. injection Ei as <-. exists FcheckPlugin.
      split; [reflexivity|]. split; [now rewrite Hp|].
      exists [], [EIssuesGetDone true]. eexists. reflexivity.
    + eexists. split; [exact (run_other _ _ _ _ _ _ _ _ _ Hl Ht _ Hi Ho)|].
      split; [reflexivity|]. split; [discriminate|].
      intros i Ei Hin. injection Ei as <-. contradiction.
  - eexists. split; [exact (run_fetch_failed _ _ _ _ _ _ _ _ _ Hl Ht Hi)|].
    split; [reflexivity|]. split; [intros _; split; reflexivity|].
    discriminate.
Qed.

(** C2.  When the label classifier returns an extension type and
    [extractIssueNumberFromRef] returns null on the head ref, [check] is
    [core.setFailed] with its message and nothing else: the failure is
    signalled, and there is no issue fetch, no validator call and no
    comment; the run is the same whatever [extractInfo] is, so no
    extraction takes part in it. *)
Theorem check_unresolved_issue_fails
        (fuel : nat) (net : Network) (ctx : Context Labels)
        (t : ExtensionType) :
  checkLabel (labels_of ctx) = Some t ->
  extractIssueNumberFromRef (ref_of ctx) = None ->
  check_ ctx = SetFailed "无法获取议题" Return /\
  (forall extractInfo',
      run Labels checkLabel extractIssueNumberFromRef extractInfo'
          fuel net ctx = run_ fuel net ctx) /\
  exists tr,
    run_ fuel net ctx = Some tr /\
    failures tr = ["无法获取议题"] /\
    api_calls tr = [] /\ fetches tr = [] /\ comments tr = [] /\
    entered tr = [] /\
    settled Pcheck tr = Some Resolved.
Proof.
  intros Hl He.
  assert (Ht : Js.truthy_number (extractIssueNumberFromRef (ref_of ctx))
               = None) by (apply truthy_number_none; auto).
  split; [exact (check_unresolved _ _ _ _ _ _ Hl Ht)|].
  split.
  - intros e'. rewrite (run_unresolved _ _ _ e' fuel net ctx t Hl Ht).
    symmetry. exact (run_unresolved _ _ _ _ fuel net ctx t Hl Ht).
  - eexists. split; [exact (run_unresolved _ _ _ _ fuel net ctx t Hl Ht)|].
    repeat split; reflexivity.
Qed.

(** C3.  When the label classifier returns null on the pull request's
    labels, [check] is one [core.info] and nothing else: the run completes
    with its promise resolved, with that message only, and there is no
    issue fetch, no comment and no failure signal, on every network. *)
Theorem check_unrelated_pull_request_skipped
        (fuel : nat) (net : Network) (ctx : Context Labels) :
  checkLabel (labels_of ctx) = None ->
  check_ ctx = Info_ "拉取请求与插件无关，已跳过" Return /\
  exists tr,
    run_ fuel net ctx = Some tr /\
    tr = [EInfo "拉取请求与插件无关，已跳过"; ESettle Pcheck Resolved] /\
    api_calls tr = [] /\ fetches tr = [] /\ comments tr = [] /\
    failures tr = [] /\
    settled Pcheck tr = Some Resolved.
Proof.
  intros Hl. split; [exact (check_skipped _ _ _ _ _ Hl)|].
  eexists. split; [exact (run_skipped _ _ _ _ fuel net ctx Hl)|].
  repeat split; reflexivity.
Qed.

(** C4.  Whenever the dispatched record's type is [Plugin], [checkPlugin] is
    the validator called, [publishComment] is called exactly once, its text
    contains the record's [name], and its issue number is the one parsed
    from the branch ref, which is the one that was fetched. *)
Theorem plugin_posts_one_comment_naming_the_record
        (fuel : nat) (net : Network) (ctx : Context Labels)
        (t : ExtensionType) (n : Z) (issue : IssueData) :
  checkLabel (labels_of ctx) = Some t ->
  extractIssueNumberFromRef (ref_of ctx) = Some n ->
  n <> 0 ->
  issues_get net n = Some issue ->
  type (build_ t issue) = "Plugin" ->
  exists tr text,
    run_ (S (S fuel)) net ctx = Some tr /\
    entered tr = [(FcheckPlugin, build_ t issue)] /\
    comments tr = [(n, text)] /\
    Js.contains text (name (build_ t issue)) /\
    fetches tr = [n].
Proof.
  intros Hl He Hn Hi Hp.
  assert (Ht : Js.truthy_number (extractIssueNumberFromRef (ref_of ctx))
               = Some n) by (apply truthy_number_some; auto).
  eexists. eexists.
  split; [exact (run_plugin _ _ _ _ _ _ _ _ _ Hl Ht _ Hi Hp)|].
  split; [reflexivity|]. split; [reflexivity|].
  split; [apply contains_middle | reflexivity].
Qed.

(** C6.  In every run at most one comment is created, and only when
    [checkPlugin] is the validator called; when [checkBot] or
    [checkAdapter] is the validator called, the only call to the external
    API in the whole run is the single issue fetch. *)
Theorem at_most_one_comment_and_only_for_plugin
        (fuel : nat) (net : Network) (ctx : Context Labels) :
  exists tr,
    run_ (S (S fuel)) net ctx = Some tr /\
    (length (comments tr) <= 1)%nat /\
    (forall c, In c (comments tr) ->
               exists info, entered tr = [(FcheckPlugin, info)]) /\
    (forall f info,
        In (f, info) (entered tr) ->
        f = FcheckBot \/ f = FcheckAdapter ->
        comments tr = [] /\
        exists n, api_calls tr = [EIssuesGet (ctx_repo ctx) n]).
Proof.
  destruct (checkLabel (labels_of ctx)) as [t|] eqn:Hl.
  2:{ eexists. split; [exact (run_skipped _ _ _ _ _ net ctx Hl)|].
      simpl. repeat split; try lia; intros; contradiction. }
  destruct (Js.truthy_number (extractIssueNumberFromRef (ref_of ctx)))
    as [n|] eqn:Ht.
  2:{ eexists. split; [exact (run_unresolved _ _ _ _ _ net ctx t Hl Ht)|].
      simpl. repeat split; try lia; intros; contradiction. }
  destruct (issues_get net n) as [issue|] eqn:Hi.
  2:{ eexists. split; [exact (run_fetch_failed _ _ _ _ _ _ _ _ _ Hl Ht Hi)|].
      simpl. repeat split; try lia; intros; contradiction. }
  destruct (type_cases (build_ t issue)) as [Hb|[Ha|[Hp|Ho]]].
  - eexists. split; [exact (run_bot _ _ _ _ _ _ _ _ _ Hl Ht _ Hi Hb)|].
    simpl. split; [lia|]. split; [intros c []|].
    intros f info _ _. split; [reflexivity|]. exists n. reflexivity.
  - eexists. split; [exact (run_adapter _ _ _ _ _ _ _ _ _ Hl Ht _ Hi Ha)|].
    simpl. split; [lia|]. split; [intros c []|].
    intros f info _ _. split; [reflexivity|]. exists n. reflexivity.
  - eexists. split; [exact (run_plugin _ _ _ _ _ _ _ _ _ Hl Ht _ Hi Hp)|].
    split; [simpl; lia|]. split.
    + intros c _. eexists. reflexivity.
    + intros f info [E|[]] [F|F]; injection E as <- _; discriminate.
  - eexists. split; [exact (run_other _ _ _ _ _ _ _ _ _ Hl Ht _ Hi Ho)|].
    simpl. repeat split; try lia; intros; contradiction.
Qed.

(** C9.  The guard on the parsed issue number tests falsiness: when
    [extractIssueNumberFromRef] returns [0] the run is the very run of the
    null case, the failure signal and nothing else, with no fetch; and in
    every run a fetch is only ever sent with a non-zero issue number, the
    one the parser returned. *)
Theorem zero_issue_number_fails_like_null
        (fuel : nat) (net : Network) (ctx : Context Labels) :
  (forall t,
      checkLabel (labels_of ctx) = Some t ->
      extractIssueNumberFromRef (ref_of ctx) = Some 0 \/
      extractIssueNumberFromRef (ref_of ctx) = None ->
      run_ fuel net ctx =
      Some [ESetFailed "无法获取议题"; ESettle Pcheck Resolved]) /\
  (forall tr n,
      run_ (S (S fuel)) net ctx = Some tr -> In n (fetches tr) ->
      n <> 0 /\ extractIssueNumberFromRef (ref_of ctx) = Some n).
Proof.
  split.
  - intros t Hl H. apply (run_unresolved _ _ _ _ fuel net ctx t Hl).
    apply truthy_number_none. tauto.
  - intros tr n Hr Hin.
    destruct (checkLabel (labels_of ctx)) as [t|] eqn:Hl.
    2:{ rewrite (run_skipped _ _ _ _ _ net ctx Hl) in Hr.
        injection Hr as <-. contradiction. }
    destruct (Js.truthy_number (extractIssueNumberFromRef (ref_of ctx)))
      as [m|] eqn:Ht.
    2:{ rewrite (run_unresolved _ _ _ _ _ net ctx t Hl Ht) in Hr.
        injection Hr as <-. contradiction. }
    assert (Hm : n = m).
    { destruct (issues_get net m) as [issue|] eqn:Hi.
      - destruct (type_cases (build_ t issue)) as [Hb|[Ha|[Hp|Ho]]].
        + rewrite (run_bot _ _ _ _ _ _ _ _ _ Hl Ht _ Hi Hb) in Hr.
          injection Hr as <-. destruct Hin as [E|[]]. now symmetry.
        + rewrite (run_adapter _ _ _ _ _ _ _ _ _ Hl Ht _ Hi Ha) in Hr.
          injection Hr as <-. destruct Hin as [E|[]]. now symmetry.
        + rewrite (run_plugin _ _ _ _ _ _ _ _ _ Hl Ht _ Hi Hp) in Hr.
          injection Hr as <-. destruct Hin as [E|[]]. now symmetry.
        + rewrite (run_other _ _ _ _ _ _ _ _ _ Hl Ht _ Hi Ho) in Hr.
          injection Hr as <-. destruct Hin as [E|[]]. now symmetry.
      - rewrite (run_fetch_failed _ _ _ _ _ _ _ _ _ Hl Ht Hi) in Hr.
        injection Hr as <-. destruct Hin as [E|[]]. now symmetry. }
    subst m. apply truthy_number_some in Ht. tauto.
Qed.

(** C10.  The switch keys on the [type] of the record returned by
    [extractInfo], whatever the label-derived type is, and has no default:
    once the issue is fetched, when the record's type is one of [Bot],
    [Adapter], [Plugin] exactly one validator is called, the one of that
    [case]; when it is any other string no validator is called, no comment
    is posted, no failure is signalled and the promise of [check] is
    resolved. *)
Theorem dispatch_keys_on_record_type
        (fuel : nat) (net : Network) (ctx : Context Labels)
        (t : ExtensionType) (n : Z) (issue : IssueData) :
  checkLabel (labels_of ctx) = Some t ->
  Js.truthy_number (extractIssueNumberFromRef (ref_of ctx)) = Some n ->
  issues_get net n = Some issue ->
  exists tr,
    run_ (S (S fuel)) net ctx = Some tr /\
    (In (type (build_ t issue)) ["Bot"; "Adapter"; "Plugin"] ->
     exists f, entered tr = [(f, build_ t issue)] /\
               case_label f = type (build_ t issue)) /\
    (~ In (type (build_ t issue)) ["Bot"; "Adapter"; "Plugin"] ->
     entered tr = [] /\ comments tr = [] /\ failures tr = [] /\
     settled Pcheck tr = Some Resolved).
Proof.
  intros Hl Ht Hi.
  destruct (type_cases (build_ t issue)) as [Hb|[Ha|[Hp|Ho]]].
  - eexists. split; [exact (run_bot _ _ _ _ _ _ _ _ _ Hl Ht _ Hi Hb)|].
    split.
    + intros _. exists FcheckBot. split; [reflexivity | now rewrite Hb].
    + intros H. exfalso. apply H. rewrite Hb. simpl. auto.
  - eexists. split; [exact (run_adapter _ _ _ _ _ _ _ _ _ Hl Ht _ Hi Ha)|].
    split.
    + intros _. exists FcheckAdapter. split; [reflexivity | now rewrite Ha].
    + intros H. exfalso. apply H. rewrite Ha. simpl. auto.
  - eexists. split; [exact (run_plugin _ _ _ _ _ _ _ _ _ Hl Ht _ Hi Hp)|].
    split.
    + intros _. exists FcheckPlugin. split; [reflexivity | now rewrite Hp].
    + intros H. exfalso. apply H. rewrite Hp. simpl. auto.
  - eexists. split; [exact (run_other _ _ _ _ _ _ _ _ _ Hl Ht _ Hi Ho)|].
    split; [intros H; contradiction|].
    intros _. repeat split; reflexivity.
Qed.

End Dispatcher.

(** ** The awaited and the dropped promise *)

(** On the [Plugin] path the promise of [check] is resolved as soon as
    [publishComment] has been called: the completion of the comment, and a
    failure of it, come after and settle the promise of [checkPlugin]
    only. *)
Lemma check_resolves_before_comment_completes
      (Labels : Type)
      (checkLabel : option Labels -> option ExtensionType)
      (extractIssueNumberFromRef : option string -> option Z)
      (extractInfo : ExtensionType -> string -> string -> Info)
      (fuel : nat) (net : Network) (ctx : Context Labels)
      (t : ExtensionType) (n : Z) (issue : IssueData) :
  checkLabel (option_map labels (pull_request ctx)) = Some t ->
  Js.truthy_number
    (extractIssueNumberFromRef (option_map head_ref (pull_request ctx)))
  = Some n ->
  issues_get net n = Some issue ->
  type (build_info extractInfo t issue) = "Plugin" ->
  exists tr ok,
    run Labels checkLabel extractIssueNumberFromRef extractInfo
        (S (S fuel)) net ctx = Some tr /\
    before (ESettle Pcheck Resolved) (EPublishCommentDone ok) tr /\
    settled Pcheck tr = Some Resolved /\
    settled (Pof FcheckPlugin) tr
    = Some (if ok then Resolved else Rejected).
Proof.
  intros Hl Ht Hi Hp. eexists. eexists.
  split; [exact (run_plugin _ _ _ _ _ _ _ _ _ Hl Ht _ Hi Hp)|].
  split.
  - unfold before. eexists [_; _; _; _; _], [], _. reflexivity.
  - split; reflexivity.
Qed.

(** C5, at the scenario of a [Plugin] pull request for issue 42 whose
    comment creation fails.  The comment is requested, the promise of
    [check] is resolved before the request completes, and the failure
    rejects the promise of [checkPlugin], which [check] dropped: [check]
    itself ends resolved. *)
Theorem comment_failure_does_not_reach_check :
  exists tr,
    Scenario.run 2
      (Scenario.network 42 (Scenario.issue "name: echo-plugin" "alice") false)
      (Scenario.context ["Plugin"] "issue-42") = Some tr /\
    comments tr = [(42, "插件 echo-plugin 没有问题")] /\
    before (ESettle Pcheck Resolved) (EPublishCommentDone false) tr /\
    settled Pcheck tr = Some Resolved /\
    settled (Pof FcheckPlugin) tr = Some Rejected.
Proof.
  eexists. split; [vm_compute; reflexivity|].
  split; [reflexivity|]. split.
  - unfold before. eexists [_; _; _; _; _], [], _. reflexivity.
  - split; reflexivity.
Qed.

(** C1 as stated fails when the fetch fails: on a [Plugin] pull request for
    issue 42 and a network that answers no request, the classifier and the
    parser both return non-null values, one fetch is sent, and no validator
    is called. *)
Lemma fetch_failure_calls_no_validator :
  Scenario.checkLabel (Some ["Plugin"]) = Some Plugin /\
  Scenario.extractIssueNumberFromRef (Some "issue-42") = Some 42 /\
  exists tr,
    Scenario.run 2 Scenario.offline (Scenario.context ["Plugin"] "issue-42")
    = Some tr /\
    fetches tr = [42] /\
    entered tr = [] /\
    ~ (exists f info, In (EEnter f info) tr).
Proof.
  split; [reflexivity|]. split; [reflexivity|].
  eexists. split; [vm_compute; reflexivity|].
  split; [reflexivity|]. split; [reflexivity|].
  intros (f & info & H). simpl in H.
  destruct H as [H|[H|[H|[]]]]; discriminate.
Qed.

(** ** The record built from the fetched issue *)

(** C7.  With the extractor of the specification, for every extension type
    and every fetched issue, whatever its body, the record [check] builds
    has the classifier's type as its [type] and the issue author's login as
    its [author]; the body and the login are replaced by the empty string
    when absent.  The extractor is total, so no body makes it fail, and in
    every run that fetched the issue this record is the one the single
    validator called receives. *)
Theorem built_record_carries_type_and_author
        (parse_name : ExtensionType -> string -> option string)
        (t : ExtensionType) (issue : IssueData) :
  let info := build_info (Utils.extractInfo parse_name) t issue in
  type info = tag t /\
  author info = match user issue with
                | Some u => match login u with
                            | Some l => l
                            | None => ""
                            end
                | None => ""
                end /\
  name info = match parse_name t match body issue with
                                 | Some b => b
                                 | None => ""
                                 end with
              | Some nm => nm
              | None => ""
              end /\
  forall (Labels : Type)
         (checkLabel : option Labels -> option ExtensionType)
         (extractIssueNumberFromRef : option string -> option Z)
         (fuel : nat) (net : Network) (ctx : Context Labels) (n : Z),
    checkLabel (option_map labels (pull_request ctx)) = Some t ->
    Js.truthy_number
      (extractIssueNumberFromRef (option_map head_ref (pull_request ctx)))
    = Some n ->
    issues_get net n = Some issue ->
    exists tr f,
      run Labels checkLabel extractIssueNumberFromRef
          (Utils.extractInfo parse_name) (S (S fuel)) net ctx = Some tr /\
      entered tr = [(f, info)] /\
      case_label f = tag t.
Proof.
  intros info. split; [reflexivity|]. split.
  { unfold info, build_info, user_login. simpl.
    destruct (user issue) as [u|]; [destruct (login u)|]; reflexivity. }
  split.
  { unfold info, build_info. simpl. destruct (body issue); reflexivity. }
  intros Labels checkLabel extractIssueNumberFromRef fuel net ctx n Hl Ht Hi.
  assert (Hty : type info = tag t) by reflexivity.
  destruct t.
  - eexists. exists FcheckBot.
    split; [exact (run_bot _ _ _ _ _ _ _ _ _ Hl Ht _ Hi Hty)|].
    split; reflexivity.
  - eexists. exists FcheckAdapter.
    split; [exact (run_adapter _ _ _ _ _ _ _ _ _ Hl Ht _ Hi Hty)|].
    split; reflexivity.
  - eexists. exists FcheckPlugin.
    split; [exact (run_plugin _ _ _ _ _ _ _ _ _ Hl Ht _ Hi Hty)|].
    split; reflexivity.
Qed.

(** ** The branch reference parser *)

Lemma strip_prefix_app (p s : string) :
  Utils.strip_prefix p (p ++ s)%string = Some s.
Proof.
  induction p as [|a p IH]; simpl; [reflexivity|].
  rewrite Ascii.eqb_refl. exact IH.
Qed.

Lemma strip_prefix_sound (p : string) :
  forall s r, Utils.strip_prefix p s = Some r -> s = (p ++ r)%string.
Proof.
  induction p as [|a p IH]; simpl; intros s r H.
  - now injection H as ->.
  - destruct s as [|b s]; [discriminate|].
    destruct (Ascii.eqb_spec a b) as [->|_]; [|discriminate].
    f_equal. now apply IH.
Qed.

Lemma parse_digits_decimal (s : string) :
  Utils.all_digits s = true ->
  forall acc,
    Utils.parse_digits acc s
    = Some (acc * 10 ^ Z.of_nat (String.length s) + Utils.decimal s).
Proof.
  induction s as [|c r IH];
    cbn [Utils.all_digits Utils.parse_digits Utils.decimal String.length];
    intros H acc.
  - f_equal. change (Z.of_nat 0) with 0. lia.
  - apply andb_true_iff in H as [Hc Hr]. rewrite Hc, (IH Hr).
    f_equal. rewrite Nat2Z.inj_succ, Z.pow_succ_r by lia. ring.
Qed.

Lemma parse_digits_rejects (s : string) :
  Utils.all_digits s = false ->
  forall acc, Utils.parse_digits acc s = None.
Proof.
  induction s as [|c r IH]; simpl; intros H acc; [discriminate|].
  destruct (Utils.is_digit c); [|reflexivity].
  apply IH. exact H.
Qed.

(** C8.  With the parser of the specification, for any fixed prefix: on a
    ref made of the prefix followed by one or more digits denoting a
    positive number the parser returns the integer value of the digits; on
    any other string, or when the embedded number is not positive, it
    returns null; so whatever it returns is positive. *)
Theorem extractIssueNumberFromRef_spec (fixed_prefix ref : string) :
  (forall digits,
      ref = (fixed_prefix ++ digits)%string ->
      digits <> "" ->
      Utils.all_digits digits = true ->
      0 < Utils.decimal digits ->
      Utils.extractIssueNumberFromRef fixed_prefix ref
      = Some (Utils.decimal digits)) /\
  ((forall digits,
       ref = (fixed_prefix ++ digits)%string ->
       digits = "" \/ Utils.all_digits digits = false \/
       Utils.decimal digits <= 0) ->
   Utils.extractIssueNumberFromRef fixed_prefix ref = None) /\
  (forall n,
      Utils.extractIssueNumberFromRef fixed_prefix ref = Some n -> 0 < n).
Proof.
  unfold Utils.extractIssueNumberFromRef. split; [|split].
  - intros digits -> Hne Hd Hpos. rewrite strip_prefix_app.
    destruct digits as [|c r]; [contradiction|].
    rewrite (parse_digits_decimal _ Hd). rewrite Z.mul_0_l, Z.add_0_l.
    apply Z.ltb_lt in Hpos. now rewrite Hpos.
  - intros H.
    destruct (Utils.strip_prefix fixed_prefix ref) as [r|] eqn:Hs;
      [|reflexivity].
    apply strip_prefix_sound in Hs.
    destruct (H r Hs) as [->|[Hd|Hz]]; [reflexivity| |].
    + rewrite (parse_digits_rejects _ Hd). now destruct r.
    + destruct r as [|c r]; [reflexivity|].
      destruct (Utils.all_digits (String c r)) eqn:Hd.
      * rewrite (parse_digits_decimal _ Hd), Z.mul_0_l, Z.add_0_l.
        apply Z.ltb_ge in Hz. now rewrite Hz.
      * now rewrite (parse_digits_rejects _ Hd).
  - intros n.
    destruct (Utils.strip_prefix fixed_prefix ref) as [[|c r]|];
      [discriminate| |discriminate].
    destruct (Utils.parse_digits 0 (String c r)) as [m|]; [|discriminate].
    destruct (Z.ltb_spec 0 m) as [Hm|_]; [|discriminate].
    intros E. now injection E as <-.
Qed.

(** ** The scenarios, as instances of the theorems *)

(** Scenario B: a [Bot] pull request for issue 7 naming [weatherbot]. *)
Lemma check_fetches_once_then_one_validator_witness :
  Scenario.checkLabel (Some ["Bot"]) = Some Bot /\
  Scenario.extractIssueNumberFromRef (Some "issue-7") = Some 7 /\
  7 <> 0 /\
  exists tr,
    Scenario.run 2
      (Scenario.network 7 (Scenario.issue "name: weatherbot" "bob") true)
      (Scenario.context ["Bot"] "issue-7") = Some tr /\
    fetches tr = [7] /\
    exists f info, entered tr = [(f, info)] /\ case_label f = "Bot".
Proof.
  split; [reflexivity|]. split; [reflexivity|]. split; [discriminate|].
  destruct (check_fetches_once_then_one_validator
              (list string) Scenario.checkLabel
              Scenario.extractIssueNumberFromRef Scenario.extractInfo
              0%nat
              (Scenario.network 7
                 (Scenario.issue "name: weatherbot" "bob") true)
              (Scenario.context ["Bot"] "issue-7") Bot 7
              eq_refl eq_refl ltac:(discriminate))
    as (tr & Hr & Hf & _ & Hv).
  exists tr. split; [exact Hr|]. split; [exact Hf|].
  destruct (Hv (Scenario.issue "name: weatherbot" "bob") eq_refl
               ltac:(simpl; auto)) as (f & He & Hc & _).
  exists f. eexists. split; [exact He | exact Hc].
Defined.

(** Scenario D: an [Adapter] pull request from [not-an-issue-branch]. *)
Lemma check_unresolved_issue_fails_witness :
  Scenario.checkLabel (Some ["Adapter"]) = Some Adapter /\
  Scenario.extractIssueNumberFromRef (Some "not-an-issue-branch") = None /\
  exists tr,
    Scenario.run 0 Scenario.offline
      (Scenario.context ["Adapter"] "not-an-issue-branch") = Some tr /\
    failures tr = ["无法获取议题"] /\ fetches tr = [] /\ entered tr = [].
Proof.
  split; [reflexivity|]. split; [reflexivity|].
  destruct (check_unresolved_issue_fails
              (list string) Scenario.checkLabel
              Scenario.extractIssueNumberFromRef Scenario.extractInfo
              0%nat Scenario.offline
              (Scenario.context ["Adapter"] "not-an-issue-branch") Adapter
              eq_refl eq_refl)
    as (_ & _ & tr & Hr & Hf & _ & Hfe & _ & He & _).
  exists tr. repeat split; assumption.
Defined.

(** Scenario C: a pull request without labels; and a payload without a
    pull request. *)
Lemma check_unrelated_pull_request_skipped_witness :
  (Scenario.checkLabel (Some []) = None /\
   exists tr,
     Scenario.run 0 Scenario.offline (Scenario.context [] "issue-7")
     = Some tr /\
     api_calls tr = [] /\ failures tr = [] /\
     settled Pcheck tr = Some Resolved) /\
  (Scenario.checkLabel None = None /\
   exists tr,
     Scenario.run 0 Scenario.offline (mkContext Scenario.this_repo None)
     = Some tr /\
     api_calls tr = [] /\ failures tr = [] /\
     settled Pcheck tr = Some Resolved).
Proof.
  split.
  - split; [reflexivity|].
    destruct (check_unrelated_pull_request_skipped
                (list string) Scenario.checkLabel
                Scenario.extractIssueNumberFromRef Scenario.extractInfo
                0%nat Scenario.offline (Scenario.context [] "issue-7")
                eq_refl)
      as (_ & tr & Hr & _ & Ha & _ & _ & Hf & Hs).
    exists tr. repeat split; assumption.
  - split; [reflexivity|].
    destruct (check_unrelated_pull_request_skipped
                (list string) Scenario.checkLabel
                Scenario.extractIssueNumberFromRef Scenario.extractInfo
                0%nat Scenario.offline (mkContext Scenario.this_repo None)
                eq_refl)
      as (_ & tr & Hr & _ & Ha & _ & _ & Hf & Hs).
    exists tr. repeat split; assumption.
Defined.

(** Scenario A: a [Plugin] pull request for issue 42 naming
    [echo-plugin]. *)
Lemma plugin_posts_one_comment_naming_the_record_witness :
  Scenario.checkLabel (Some ["Plugin"]) = Some Plugin /\
  Scenario.extractIssueNumberFromRef (Some "issue-42") = Some 42 /\
  exists tr text,
    Scenario.run 2
      (Scenario.network 42 (Scenario.issue "name: echo-plugin" "alice") true)
      (Scenario.context ["Plugin"] "issue-42") = Some tr /\
    comments tr = [(42, text)] /\
    Js.contains text "echo-plugin" /\
    fetches tr = [42].
Proof.
  split; [reflexivity|]. split; [reflexivity|].
  destruct (plugin_posts_one_comment_naming_the_record
              (list string) Scenario.checkLabel
              Scenario.extractIssueNumberFromRef Scenario.extractInfo
              0%nat
              (Scenario.network 42
                 (Scenario.issue "name: echo-plugin" "alice") true)
              (Scenario.context ["Plugin"] "issue-42") Plugin 42
              (Scenario.issue "name: echo-plugin" "alice")
              eq_refl eq_refl ltac:(discriminate) eq_refl eq_refl)
    as (tr & text & Hr & _ & Hc & Hn & Hf).
  exists tr, text. repeat split; assumption.
Defined.

(** Scenario A: the record built for [echo-plugin] by [alice]. *)
Lemma built_record_carries_type_and_author_witness :
  let info :=
    build_info Scenario.extractInfo Plugin
               (Scenario.issue "name: echo-plugin" "alice") in
  type info = "Plugin" /\ author info = "alice" /\
  name info = "echo-plugin" /\
  exists tr f,
    Scenario.run 2
      (Scenario.network 42 (Scenario.issue "name: echo-plugin" "alice") true)
      (Scenario.context ["Plugin"] "issue-42") = Some tr /\
    entered tr = [(f, info)] /\ case_label f = "Plugin".
Proof.
  intros info.
  destruct (built_record_carries_type_and_author
              Scenario.parse_name Plugin
              (Scenario.issue "name: echo-plugin" "alice"))
    as (Ht & Ha & Hn & Hrun).
  split; [exact Ht|]. split; [exact Ha|]. split; [exact Hn|].
  exact (Hrun (list string) Scenario.checkLabel
              Scenario.extractIssueNumberFromRef 0%nat
              (Scenario.network 42
                 (Scenario.issue "name: echo-plugin" "alice") true)
              (Scenario.context ["Plugin"] "issue-42") 42
              eq_refl eq_refl eq_refl).
Defined.

(** The branches of the scenarios, and one whose number is zero. *)
Lemma extractIssueNumberFromRef_spec_witness :
  Utils.extractIssueNumberFromRef "issue-" "issue-42" = Some 42 /\
  Utils.extractIssueNumberFromRef "issue-" "not-an-issue-branch" = None /\
  Utils.extractIssueNumberFromRef "issue-" "issue-0" = None.
Proof.
  split; [|split].
  - apply (proj1 (extractIssueNumberFromRef_spec "issue-" "issue-42") "42");
      [reflexivity | discriminate | reflexivity | reflexivity].
  - apply (proj1 (proj2 (extractIssueNumberFromRef_spec
                           "issue-" "not-an-issue-branch"))).
    intros digits H. discriminate H.
  - apply (proj1 (proj2 (extractIssueNumberFromRef_spec "issue-" "issue-0"))).
    intros digits H. injection H as <-. right; right. discriminate.
Defined.

(** A parser that answers zero on every ref, and the fetch of
    scenario A. *)
Lemma zero_issue_number_fails_like_null_witness :
  (Scenario.checkLabel (Some ["Plugin"]) = Some Plugin /\
   run (list string) Scenario.checkLabel (fun _ => Some 0)
       Scenario.extractInfo 2
       (Scenario.network 0 (Scenario.issue "name: echo-plugin" "alice") true)
       (Scenario.context ["Plugin"] "issue-0")
   = Some [ESetFailed "无法获取议题"; ESettle Pcheck Resolved]) /\
  (exists tr,
      Scenario.run 2
        (Scenario.network 42
           (Scenario.issue "name: echo-plugin" "alice") true)
        (Scenario.context ["Plugin"] "issue-42") = Some tr /\
      In 42 (fetches tr) /\ 42 <> 0).
Proof.
  split.
  - split; [reflexivity|].
    apply (proj1 (zero_issue_number_fails_like_null
                    (list string) Scenario.checkLabel (fun _ => Some 0)
                    Scenario.extractInfo 2%nat
                    (Scenario.network 0
                       (Scenario.issue "name: echo-plugin" "alice") true)
                    (Scenario.context ["Plugin"] "issue-0"))
                 Plugin eq_refl).
    left. reflexivity.
  - eexists. split; [vm_compute; reflexivity|].
    split; [simpl; auto|].
    refine (proj1 (proj2 (zero_issue_number_fails_like_null
                            (list string) Scenario.checkLabel
                            Scenario.extractIssueNumberFromRef
                            Scenario.extractInfo 0%nat
                            (Scenario.network 42
                               (Scenario.issue "name: echo-plugin" "alice")
                               true)
                            (Scenario.context ["Plugin"] "issue-42"))
                         _ 42 eq_refl _)).
    simpl. auto.
Defined.

(** An extractor whose record is always of type [Plugin], and one whose
    record is of no known type, both on a [Bot] pull request. *)
Lemma dispatch_keys_on_record_type_witness :
  (exists tr f info,
      run (list string) Scenario.checkLabel
          Scenario.extractIssueNumberFromRef
          (fun _ _ a => mkInfo "Plugin" "echo-plugin" a) 2
          (Scenario.network 7 (Scenario.issue "" "alice") true)
          (Scenario.context ["Bot"] "issue-7") = Some tr /\
      entered tr = [(f, info)] /\ case_label f = "Plugin") /\
  (exists tr,
      run (list string) Scenario.checkLabel
          Scenario.extractIssueNumberFromRef
          (fun _ _ a => mkInfo "Driver" "echo-plugin" a) 2
          (Scenario.network 7 (Scenario.issue "" "alice") true)
          (Scenario.context ["Bot"] "issue-7") = Some tr /\
      entered tr = [] /\ comments tr = [] /\ failures tr = [] /\
      settled Pcheck tr = Some Resolved).
Proof.
  split.
  - destruct (dispatch_keys_on_record_type
                (list string) Scenario.checkLabel
                Scenario.extractIssueNumberFromRef
                (fun _ _ a => mkInfo "Plugin" "echo-plugin" a) 0%nat
                (Scenario.network 7 (Scenario.issue "" "alice") true)
                (Scenario.context ["Bot"] "issue-7") Bot 7
                (Scenario.issue "" "alice") eq_refl eq_refl eq_refl)
      as (tr & Hr & Hin & _).
    destruct (Hin ltac:(simpl; auto)) as (f & He & Hc).
    exists tr, f. eexists. repeat split; eassumption.
  - destruct (dispatch_keys_on_record_type
                (list string) Scenario.checkLabel
                Scenario.extractIssueNumberFromRef
                (fun _ _ a => mkInfo "Driver" "echo-plugin" a) 0%nat
                (Scenario.network 7 (Scenario.issue "" "alice") true)
                (Scenario.context ["Bot"] "issue-7") Bot 7
                (Scenario.issue "" "alice") eq_refl eq_refl eq_refl)
      as (tr & Hr & _ & Hout).
    exists tr. split; [exact Hr|]. apply Hout.
    simpl. intros [H|[H|[H|[]]]]; discriminate.
Defined.

(** ** Every run of [check] *)

Lemma append_empty_r (s : string) : (s ++ "")%string = s.
Proof. induction s as [|c s IH]; simpl; [reflexivity | now rewrite IH]. Qed.

Lemma contains_suffix (a s : string) : Js.contains (a ++ s)%string s.
Proof. exists a, "". now rewrite append_empty_r. Qed.

Section Paths.

Variable Labels : Type.
Variable checkLabel : option Labels -> option ExtensionType.
Variable extractIssueNumberFromRef : option string -> option Z.
Variable extractInfo : ExtensionType -> string -> string -> Info.

Local Abbreviation run_ :=
  (run Labels checkLabel extractIssueNumberFromRef extractInfo).
Local Abbreviation build_ := (build_info extractInfo).
Local Abbreviation labels_of ctx := (option_map labels (pull_request ctx)).
Local Abbreviation ref_of ctx := (option_map head_ref (pull_request ctx)).

(** X1.  Every run of [check] ends, after at most two request completions,
    and follows one of seven paths, told apart by what the classifier, the
    parser, the network and the built record's type are: skipped,
    unresolved issue, failed fetch, [checkBot], [checkAdapter],
    [checkPlugin], and a record of no known type.  The trace of each path
    is given in full. *)
Theorem check_run_paths (fuel : nat) (net : Network) (ctx : Context Labels) :
  (checkLabel (labels_of ctx) = None /\
   run_ (S (S fuel)) net ctx =
   Some [EInfo "拉取请求与插件无关，已跳过"; ESettle Pcheck Resolved]) \/
  (exists t,
      checkLabel (labels_of ctx) = Some t /\
      Js.truthy_number (extractIssueNumberFromRef (ref_of ctx)) = None /\
      run_ (S (S fuel)) net ctx =
      Some [ESetFailed "无法获取议题"; ESettle Pcheck Resolved]) \/
  (exists t n,
      checkLabel (labels_of ctx) = Some t /\
      Js.truthy_number (extractIssueNumberFromRef (ref_of ctx)) = Some n /\
      ((issues_get net n = None /\
        run_ (S (S fuel)) net ctx =
        Some [EIssuesGet (ctx_repo ctx) n; EIssuesGetDone false;
              ESettle Pcheck Rejected]) \/
       (exists issue,
           issues_get net n = Some issue /\
           ((type (build_ t issue) = "Bot" /\
             run_ (S (S fuel)) net ctx =
             Some [EIssuesGet (ctx_repo ctx) n; EIssuesGetDone true;
                   EEnter FcheckBot (build_ t issue);
                   EInfo ("机器人 " ++ name (build_ t issue))%string;
                   ESettle (Pof FcheckBot) Resolved;
                   ESettle Pcheck Resolved]) \/
            (type (build_ t issue) = "Adapter" /\
             run_ (S (S fuel)) net ctx =
             Some [EIssuesGet (ctx_repo ctx) n; EIssuesGetDone true;
                   EEnter FcheckAdapter (build_ t issue);
                   EInfo ("适配器 " ++ name (build_ t issue))%string;
                   ESettle (Pof FcheckAdapter) Resolved;
                   ESettle Pcheck Resolved]) \/
            (type (build_ t issue) = "Plugin" /\
             exists ok,
               ok = create_comment net n
                      ("插件 " ++ name (build_ t issue) ++ " 没有问题")%string /\
               run_ (S (S fuel)) net ctx =
               Some [EIssuesGet (ctx_repo ctx) n; EIssuesGetDone true;
                     EEnter FcheckPlugin (build_ t issue);
                     EInfo ("插件 " ++ name (build_ t issue))%string;
                     EPublishComment n
                       ("插件 " ++ name (build_ t issue) ++ " 没有问题")%string;
                     ESettle Pcheck Resolved;
                     EPublishCommentDone ok;
                     ESettle (Pof FcheckPlugin)
                             (if ok then Resolved else Rejected)]) \/
            (~ In (type (build_ t issue)) ["Bot"; "Adapter"; "Plugin"] /\
             run_ (S (S fuel)) net ctx =
             Some [EIssuesGet (ctx_repo ctx) n; EIssuesGetDone true;
                   ESettle Pcheck Resolved]))))).
Proof.
  destruct (checkLabel (labels_of ctx)) as [t|] eqn:Hl.
  2:{ left. split; [reflexivity|]. exact (run_skipped _ _ _ _ _ net ctx Hl). }
  right.
  destruct (Js.truthy_number (extractIssueNumberFromRef (ref_of ctx)))
    as [n|] eqn:Ht.
  2:{ left. exists t. split; [reflexivity|]. split; [reflexivity|].
      exact (run_unresolved _ _ _ _ _ net ctx t Hl Ht). }
  right. exists t, n. split; [reflexivity|]. split; [reflexivity|].
  destruct (issues_get net n) as [issue|] eqn:Hi.
  2:{ left. split; [reflexivity|].
      exact (run_fetch_failed _ _ _ _ _ _ _ _ _ Hl Ht Hi). }
  right. exists issue. split; [reflexivity|].
  destruct (type_cases (build_ t issue)) as [Hb|[Ha|[Hp|Ho]]].
  - left. split; [exact Hb|].
    exact (run_bot _ _ _ _ _ _ _ _ _ Hl Ht _ Hi Hb).
  - right; left. split; [exact Ha|].
    exact (run_adapter _ _ _ _ _ _ _ _ _ Hl Ht _ Hi Ha).
  - right; right; left. split; [exact Hp|]. eexists. split; [reflexivity|].
    exact (run_plugin _ _ _ _ _ _ _ _ _ Hl Ht _ Hi Hp).
  - right; right; right. split; [exact Ho|].
    exact (run_other _ _ _ _ _ _ _ _ _ Hl Ht _ Hi Ho).
Qed.

(** The same case analysis for the proofs below, which do not go through
    the theorem above. *)
Lemma run_paths (fuel : nat) (net : Network) (ctx : Context Labels) :
  (checkLabel (labels_of ctx) = None /\
   run_ (S (S fuel)) net ctx =
   Some [EInfo "拉取请求与插件无关，已跳过"; ESettle Pcheck Resolved]) \/
  (exists t,
      checkLabel (labels_of ctx) = Some t /\
      Js.truthy_number (extractIssueNumberFromRef (ref_of ctx)) = None /\
      run_ (S (S fuel)) net ctx =
      Some [ESetFailed "无法获取议题"; ESettle Pcheck Resolved]) \/
  (exists t n,
      checkLabel (labels_of ctx) = Some t /\
      Js.truthy_number (extractIssueNumberFromRef (ref_of ctx)) = Some n /\
      issues_get net n = None /\
      run_ (S (S fuel)) net ctx =
      Some [EIssuesGet (ctx_repo ctx) n; EIssuesGetDone false;
            ESettle Pcheck Rejected]) \/
  (exists t n issue,
      checkLabel (labels_of ctx) = Some t /\
      Js.truthy_number (extractIssueNumberFromRef (ref_of ctx)) = Some n /\
      issues_get net n = Some issue /\
      type (build_ t issue) = "Bot" /\
      run_ (S (S fuel)) net ctx =
      Some [EIssuesGet (ctx_repo ctx) n; EIssuesGetDone true;
            EEnter FcheckBot (build_ t issue);
            EInfo ("机器人 " ++ name (build_ t issue))%string;
            ESettle (Pof FcheckBot) Resolved; ESettle Pcheck Resolved]) \/
  (exists t n issue,
      checkLabel (labels_of ctx) = Some t /\
      Js.truthy_number (extractIssueNumberFromRef (ref_of ctx)) = Some n /\
      issues_get net n = Some issue /\
      type (build_ t issue) = "Adapter" /\
      run_ (S (S fuel)) net ctx =
      Some [EIssuesGet (ctx_repo ctx) n; EIssuesGetDone true;
            EEnter FcheckAdapter (build_ t issue);
            EInfo ("适配器 " ++ name (build_ t issue))%string;
            ESettle (Pof FcheckAdapter) Resolved; ESettle Pcheck Resolved]) \/
  (exists t n issue ok,
      checkLabel (labels_of ctx) = Some t /\
      Js.truthy_number (extractIssueNumberFromRef (ref_of ctx)) = Some n /\
      issues_get net n = Some issue /\
      type (build_ t issue) = "Plugin" /\
      ok = create_comment net n
             ("插件 " ++ name (build_ t issue) ++ " 没有问题")%string /\
      run_ (S (S fuel)) net ctx =
      Some [EIssuesGet (ctx_repo ctx) n; EIssuesGetDone true;
            EEnter FcheckPlugin (build_ t issue);
            EInfo ("插件 " ++ name (build_ t issue))%string;
            EPublishComment n
              ("插件 " ++ name (build_ t issue) ++ " 没有问题")%string;
            ESettle Pcheck Resolved;
            EPublishCommentDone ok;
            ESettle (Pof FcheckPlugin)
                    (if ok then Resolved else Rejected)]) \/
  (exists t n issue,
      checkLabel (labels_of ctx) = Some t /\
      Js.truthy_number (extractIssueNumberFromRef (ref_of ctx)) = Some n /\
      issues_get net n = Some issue /\
      ~ In (type (build_ t issue)) ["Bot"; "Adapter"; "Plugin"] /\
      run_ (S (S fuel)) net ctx =
      Some [EIssuesGet (ctx_repo ctx) n; EIssuesGetDone true;
            ESettle Pcheck Resolved]).
Proof.
  destruct (checkLabel (labels_of ctx)) as [t|] eqn:Hl.
  2:{ left. split; [reflexivity|]. exact (run_skipped _ _ _ _ _ net ctx Hl). }
  right.
  destruct (Js.truthy_number (extractIssueNumberFromRef (ref_of ctx)))
    as [n|] eqn:Ht.
  2:{ left. exists t. split; [reflexivity|]. split; [reflexivity|].
      exact (run_unresolved _ _ _ _ _ net ctx t Hl Ht). }
  right.
  destruct (issues_get net n) as [issue|] eqn:Hi.
  2:{ left. exists t, n. repeat (split; [first [reflexivity | eassumption]|]).
      exact (run_fetch_failed _ _ _ _ _ _ _ _ _ Hl Ht Hi). }
  right.
  destruct (type_cases (build_ t issue)) as [Hb|[Ha|[Hp|Ho]]].
  - left. exists t, n, issue. repeat (split; [first [reflexivity | eassumption]|]).
    exact (run_bot _ _ _ _ _ _ _ _ _ Hl Ht _ Hi Hb).
  - right; left. exists t, n, issue. repeat (split; [first [reflexivity | eassumption]|]).
    exact (run_adapter _ _ _ _ _ _ _ _ _ Hl Ht _ Hi Ha).
  - right; right; left. exists t, n, issue. eexists.
    repeat (split; [first [reflexivity | eassumption]|]).
    exact (run_plugin _ _ _ _ _ _ _ _ _ Hl Ht _ Hi Hp).
  - right; right; right. exists t, n, issue. repeat (split; [first [reflexivity | eassumption]|]).
    exact (run_other _ _ _ _ _ _ _ _ _ Hl Ht _ Hi Ho).
Qed.

Ltac by_paths fuel net ctx :=
  destruct (run_paths fuel net ctx) as
    [ (Hl & Hr)
    | [ (t & Hl & Ht & Hr)
      | [ (t & n & Hl & Ht & Hi & Hr)
        | [ (t & n & issue & Hl & Ht & Hi & Hty & Hr)
          | [ (t & n & issue & Hl & Ht & Hi & Hty & Hr)
            | [ (t & n & issue & ok & Hl & Ht & Hi & Hty & Hok & Hr)
              | (t & n & issue & Hl & Ht & Hi & Hty & Hr) ]]]]]];
  eexists; (split; [exact Hr|]).

(** X2.  In every run the promise of [check] settles exactly once, and it
    is rejected exactly when a fetch was sent and the network failed it:
    no other path of [check] rejects. *)
Theorem check_promise_settles_once
        (fuel : nat) (net : Network) (ctx : Context Labels) :
  exists tr,
    run_ (S (S fuel)) net ctx = Some tr /\
    exists o,
      settlements Pcheck tr = [o] /\
      (o = Rejected <->
       exists n, fetches tr = [n] /\ issues_get net n = None).
Proof.
  by_paths fuel net ctx.
  - exists Resolved. split; [reflexivity|].
    split; [discriminate | intros (m & E & _); discriminate].
  - exists Resolved. split; [reflexivity|].
    split; [discriminate | intros (m & E & _); discriminate].
  - exists Rejected. split; [reflexivity|].
    split; [intros _; exists n; split; [reflexivity | exact Hi] | reflexivity].
  - exists Resolved. split; [reflexivity|]. split; [discriminate|].
    intros (m & E & Hm). injection E as <-. congruence.
  - exists Resolved. split; [reflexivity|]. split; [discriminate|].
    intros (m & E & Hm). injection E as <-. congruence.
  - exists Resolved. split; [reflexivity|]. split; [discriminate|].
    intros (m & E & Hm). injection E as <-. congruence.
  - exists Resolved. split; [reflexivity|]. split; [discriminate|].
    intros (m & E & Hm). injection E as <-. congruence.
Qed.

(** X3.  [core.setFailed] is called at most once in a run, and a run that
    calls it touches nothing else: no call to the external API, no
    validator, and the promise of [check] resolved.  A failed fetch is not
    reported through [core.setFailed]: when the promise of [check] is
    rejected, no failure was signalled by [check]. *)
Theorem failure_signal_excludes_api_calls
        (fuel : nat) (net : Network) (ctx : Context Labels) :
  exists tr,
    run_ (S (S fuel)) net ctx = Some tr /\
    (length (failures tr) <= 1)%nat /\
    (failures tr <> [] ->
     api_calls tr = [] /\ entered tr = [] /\
     settlements Pcheck tr = [Resolved]) /\
    (settlements Pcheck tr = [Rejected] -> failures tr = []).
Proof.
  by_paths fuel net ctx;
    (split; [simpl; lia|]);
    (split; [intros H; try (exfalso; apply H; reflexivity);
             repeat split; reflexivity
            | intros H; try reflexivity; discriminate H]).
Qed.

(** X4.  At most one validator is called in a run, and only after the
    fetch has answered: a validator that is called received the record
    built from the issue the network returned for the number the parser
    gave, that number is not zero, and the validator is the one of the
    record's type. *)
Theorem validator_called_only_after_successful_fetch
        (fuel : nat) (net : Network) (ctx : Context Labels) :
  exists tr,
    run_ (S (S fuel)) net ctx = Some tr /\
    (length (entered tr) <= 1)%nat /\
    forall f info,
      In (f, info) (entered tr) ->
      exists t n issue,
        checkLabel (labels_of ctx) = Some t /\
        extractIssueNumberFromRef (ref_of ctx) = Some n /\
        n <> 0 /\
        issues_get net n = Some issue /\
        info = build_ t issue /\
        case_label f = type info /\
        before (EIssuesGetDone true) (EEnter f info) tr.
Proof.
  by_paths fuel net ctx; (split; [simpl; lia|]); intros f info Hin;
    try contradiction;
    destruct Hin as [E|[]]; injection E as <- <-;
    apply truthy_number_some in Ht as [He Hn];
    exists t, n, issue;
    (split; [exact Hl|]); (split; [exact He|]); (split; [exact Hn|]);
    (split; [exact Hi|]); (split; [reflexivity|]);
    (split; [now rewrite Hty|]);
    unfold before; eexists [_], [], _; reflexivity.
Qed.

(** X5.  [check] writes at most one informational message in a run.  When a
    validator is called the message is the validator's and contains the
    record's [name]; the text of a posted comment is that message followed
    by a fixed suffix. *)
Theorem one_info_message_naming_the_record
        (fuel : nat) (net : Network) (ctx : Context Labels) :
  exists tr,
    run_ (S (S fuel)) net ctx = Some tr /\
    (length (infos tr) <= 1)%nat /\
    (forall f info,
        In (f, info) (entered tr) ->
        exists m, infos tr = [m] /\ Js.contains m (name info)) /\
    (forall n text,
        In (n, text) (comments tr) ->
        exists m, infos tr = [m] /\ text = (m ++ " 没有问题")%string).
Proof.
  by_paths fuel net ctx; (split; [simpl; lia|]); split;
    try (intros f info Hin; try contradiction;
         destruct Hin as [E|[]]; injection E as <- <-;
         eexists; split; [reflexivity | apply contains_suffix]);
    intros m text Hin; try contradiction.
  destruct Hin as [E|[]]. injection E as <- <-.
  eexists. split; reflexivity.
Qed.

(** X6.  The promise of a validator that is called settles exactly once.
    It is rejected exactly when the validator is [checkPlugin] and the
    creation of its comment failed; [checkBot] and [checkAdapter] always
    resolve.  [checkPlugin] settles only after its comment request has
    completed. *)
Theorem validator_promise_rejected_only_by_failed_comment
        (fuel : nat) (net : Network) (ctx : Context Labels) :
  exists tr,
    run_ (S (S fuel)) net ctx = Some tr /\
    forall f info,
      In (f, info) (entered tr) ->
      exists o,
        settlements (Pof f) tr = [o] /\
        (o = Rejected <->
         f = FcheckPlugin /\
         exists n text,
           comments tr = [(n, text)] /\ create_comment net n text = false) /\
        (f = FcheckPlugin ->
         exists n text ok,
           before (EPublishComment n text) (EPublishCommentDone ok) tr /\
           before (EPublishCommentDone ok) (ESettle (Pof f) o) tr).
Proof.
  by_paths fuel net ctx; intros f info Hin; try contradiction;
    destruct Hin as [E|[]]; injection E as <- <-.
  - exists Resolved. split; [reflexivity|]. split; [|discriminate].
    split; [discriminate | intros [F _]; discriminate].
  - exists Resolved. split; [reflexivity|]. split; [|discriminate].
    split; [discriminate | intros [F _]; discriminate].
  - exists (if ok then Resolved else Rejected).
    split; [reflexivity|]. split.
    + split.
      * intros Ho. split; [reflexivity|]. eexists. eexists.
        split; [reflexivity|]. rewrite <- Hok.
        destruct ok; [discriminate Ho | reflexivity].
      * intros (_ & m & text & E & Hm). injection E as <- <-.
        assert (Hf : ok = false) by (rewrite Hok; exact Hm).
        now rewrite Hf.
    + intros _. eexists. eexists. exists ok. split.
      * unfold before. eexists [_; _; _; _], [_], _. reflexivity.
      * unfold before. eexists [_; _; _; _; _; _], [], _. reflexivity.
Qed.

(** X7.  Once the promise of [check] has settled, nothing more happens in
    the run unless [checkPlugin] was called: then, and only then, the
    completion of the comment and the settlement of [checkPlugin]'s promise
    follow. *)
Theorem nothing_pending_after_check_unless_plugin
        (fuel : nat) (net : Network) (ctx : Context Labels) :
  exists tr,
    run_ (S (S fuel)) net ctx = Some tr /\
    ((after_settle Pcheck tr = [] /\
      forall info, ~ In (FcheckPlugin, info) (entered tr)) \/
     (exists info ok,
         entered tr = [(FcheckPlugin, info)] /\
         after_settle Pcheck tr =
         [EPublishCommentDone ok;
          ESettle (Pof FcheckPlugin) (if ok then Resolved else Rejected)])).
Proof.
  by_paths fuel net ctx;
    try (left; split; [reflexivity|];
         intros info Hin; simpl in Hin;
         repeat (destruct Hin as [Hin|Hin]; [discriminate Hin|]);
         contradiction).
  right. eexists. exists ok. split; reflexivity.
Qed.

(** X8.  A run reads the network only at the issue number the parser
    returned: two networks that answer alike for that issue, its fetch and
    the comments on it, give the same run. *)
Theorem run_reads_network_only_at_parsed_issue
        (fuel : nat) (net net' : Network) (ctx : Context Labels) :
  (forall n,
      extractIssueNumberFromRef (ref_of ctx) = Some n ->
      issues_get net' n = issues_get net n /\
      forall text, create_comment net' n text = create_comment net n text) ->
  run_ (S (S fuel)) net' ctx = run_ (S (S fuel)) net ctx.
Proof.
  intros Hsame.
  destruct (run_paths fuel net ctx) as
    [ (Hl & Hr)
    | [ (t & Hl & Ht & Hr)
      | [ (t & n & Hl & Ht & Hi & Hr)
        | [ (t & n & issue & Hl & Ht & Hi & Hty & Hr)
          | [ (t & n & issue & Hl & Ht & Hi & Hty & Hr)
            | [ (t & n & issue & ok & Hl & Ht & Hi & Hty & Hok & Hr)
              | (t & n & issue & Hl & Ht & Hi & Hty & Hr) ]]]]]];
    rewrite Hr;
    try (pose proof (proj1 (truthy_number_some _ _) Ht) as [He _];
         destruct (Hsame n He) as [Hg Hc]; rewrite <- Hg in Hi).
  - exact (run_skipped _ _ _ _ _ net' ctx Hl).
  - exact (run_unresolved _ _ _ _ _ net' ctx t Hl Ht).
  - exact (run_fetch_failed _ _ _ _ _ _ _ _ _ Hl Ht Hi).
  - exact (run_bot _ _ _ _ _ _ _ _ _ Hl Ht _ Hi Hty).
  - exact (run_adapter _ _ _ _ _ _ _ _ _ Hl Ht _ Hi Hty).
  - rewrite (run_plugin _ _ _ _ _ _ _ _ _ Hl Ht _ Hi Hty).
    cbv zeta. rewrite Hc, <- Hok. reflexivity.
  - exact (run_other _ _ _ _ _ _ _ _ _ Hl Ht _ Hi Hty).
Qed.

End Paths.

(** Scenario A on two networks that differ away from issue 42. *)
Lemma run_reads_network_only_at_parsed_issue_witness :
  Scenario.run 2
    (mkNetwork (fun m => if m =? 42
                         then Some (Scenario.issue "name: echo-plugin" "alice")
                         else Some (Scenario.issue "name: other" "bob"))
               (fun m _ => m =? 42))
    (Scenario.context ["Plugin"] "issue-42")
  = Scenario.run 2
      (Scenario.network 42 (Scenario.issue "name: echo-plugin" "alice") true)
      (Scenario.context ["Plugin"] "issue-42").
Proof.
  apply (run_reads_network_only_at_parsed_issue
           (list string) Scenario.checkLabel
           Scenario.extractIssueNumberFromRef Scenario.extractInfo 0%nat).
  intros n H. injection H as <-. split; reflexivity.
Defined.
